(** * SafeTrust front-end: registration handler, phone input and bid page

    A shallow embedding of the three components the repository shows:

    - [Registration] with its [onSubmit] handler
      (src/features/auth/pages/Registration.tsx, quoted in the guide),
    - [PhoneInput] (src/features/auth/components/PhoneInput/index.tsx),
    - [PaidStateBidRequest] (src/app/profile/bids/page.tsx).

    JSX is embedded as a tree of [Node]s; handlers and component bodies are
    programs in a small effect monad [Prog] whose nodes are the calls the
    code makes to its collaborators (React state, the router, the console
    and the identity provider). *)

From Stdlib Require Import List String Ascii.
Import ListNotations.
Open Scope string_scope.
Open Scope list_scope.

(** ** Values exchanged with the collaborators *)

(** A thrown JavaScript value; the code only passes it on to [console.error]. *)
Definition JsError := string.

(** The [auth] object exported by config/firebase. *)
Inductive FirebaseAuth : Type :=
| FirebaseAuthOf (app : string).

(** [{ state: { email } }], the second argument of [navigate]. *)
Record LocationState : Type := { state_email : string }.
Record NavigateOptions : Type := { state : LocationState }.

(** [interface RegistrationForm]. *)
Record RegistrationForm : Type := {
  fullName : string;
  phoneNumber : string;
  countryCode : string;
  location : string;
  email : string;
  password : string
}.

(** The calls the code makes on objects it does not own. *)
Inductive Call : Type :=
| createUserWithEmailAndPassword (a : FirebaseAuth) (em pw : string)
| navigate (to : string) (options : NavigateOptions)
| setIsSubmitting (value : bool)
| console_error (label : string) (error : JsError).

(** How a call ends: it returns (its promise is fulfilled) or it throws
    (its promise is rejected).  The code discards every returned value. *)
Inductive Outcome : Type :=
| Fulfilled
| Rejected (e : JsError).

(** ** The effect monad *)

(** A program returns, throws, makes a synchronous call, awaits the promise
    of a call, or reads the [isSubmitting] state cell ([useState]). *)
Inductive Prog (A : Type) : Type :=
| Ret (a : A)
| Throw (e : JsError)
| Invoke (c : Call) (k : Outcome -> Prog A)
| Await (c : Call) (k : Outcome -> Prog A)
| UseState (k : bool -> Prog A).

Arguments Ret {A} a.
Arguments Throw {A} e.
Arguments Invoke {A} c k.
Arguments Await {A} c k.
Arguments UseState {A} k.

Fixpoint bind {A B : Type} (p : Prog A) (f : A -> Prog B) : Prog B :=
  match p with
  | Ret a => f a
  | Throw e => Throw e
  | Invoke c k => Invoke c (fun o => bind (k o) f)
  | Await c k => Await c (fun o => bind (k o) f)
  | UseState k => UseState (fun b => bind (k b) f)
  end.

Declare Scope prog_scope.
Delimit Scope prog_scope with prog.
Notation "x <- p ;; q" := (bind p (fun x => q))
  (at level 61, p at next level, right associativity) : prog_scope.
Notation "p ;; q" := (bind p (fun _ => q))
  (at level 61, right associativity) : prog_scope.

(** A call whose failure is thrown at the call site. *)
Definition settle (o : Outcome) : Prog unit :=
  match o with
  | Fulfilled => Ret tt
  | Rejected e => Throw e
  end.

(** [f(args);] *)
Definition call (c : Call) : Prog unit := Invoke c settle.

(** [await f(args);] *)
Definition await (c : Call) : Prog unit := Await c settle.

(** [try { body } catch (error) { handler error }] *)
Fixpoint try_catch {A : Type} (body : Prog A) (handler : JsError -> Prog A)
  : Prog A :=
  match body with
  | Ret a => Ret a
  | Throw e => handler e
  | Invoke c k => Invoke c (fun o => try_catch (k o) handler)
  | Await c k => Await c (fun o => try_catch (k o) handler)
  | UseState k => UseState (fun b => try_catch (k b) handler)
  end.

(** [try { body } finally { fin }]: [fin] runs on both exits of [body] and
    the exit of [body] is kept unless [fin] itself throws. *)
Fixpoint try_finally {A : Type} (body : Prog A) (fin : Prog unit) : Prog A :=
  match body with
  | Ret a => bind fin (fun _ => Ret a)
  | Throw e => bind fin (fun _ => Throw e)
  | Invoke c k => Invoke c (fun o => try_finally (k o) fin)
  | Await c k => Await c (fun o => try_finally (k o) fin)
  | UseState k => UseState (fun b => try_finally (k b) fin)
  end.

(** ** Running a program *)

(** What can be observed of the page: the React state cell and the calls
    made so far, oldest first.  [isSubmitting] is the cell as the next render
    will read it, that is the value last given to the setter: React applies
    a setter's value at the render that follows, and what is on screen until
    then is kept apart, in [Page] below. *)
Record World : Type := {
  isSubmitting : bool;
  trace : list Call
}.

(** The collaborators decide how a call ends, knowing the calls made before
    it. *)
Definition Env := list Call -> Call -> Outcome.

(** A state setter and [console.error] return normally; the identity
    provider and the router answer as the environment says. *)
Definition respond (env : Env) (w : World) (c : Call) : Outcome :=
  match c with
  | setIsSubmitting _ => Fulfilled
  | console_error _ _ => Fulfilled
  | _ => env (trace w) c
  end.

(** The effect of issuing a call: it is recorded, and a state setter
    leaves its value in the cell for the next render. *)
Definition perform (c : Call) (w : World) : World :=
  {| isSubmitting :=
       match c with
       | setIsSubmitting b => b
       | _ => isSubmitting w
       end;
     trace := trace w ++ [c] |}.

Inductive Completion (A : Type) : Type :=
| Normal (a : A)
| Abrupt (e : JsError).

Arguments Normal {A} a.
Arguments Abrupt {A} e.

Fixpoint run {A : Type} (env : Env) (p : Prog A) (w : World)
  : Completion A * World :=
  match p with
  | Ret a => (Normal a, w)
  | Throw e => (Abrupt e, w)
  | Invoke c k => run env (k (respond env w c)) (perform c w)
  | Await c k => run env (k (respond env w c)) (perform c w)
  | UseState k => run env (k (isSubmitting w)) w
  end.

(** The points at which the program is suspended on a promise: the awaited
    call, and the world as it stands while the call is outstanding. *)
Fixpoint suspensions {A : Type} (env : Env) (p : Prog A) (w : World)
  : list (Call * World) :=
  match p with
  | Ret _ => []
  | Throw _ => []
  | Invoke c k => suspensions env (k (respond env w c)) (perform c w)
  | Await c k =>
      (c, perform c w) :: suspensions env (k (respond env w c)) (perform c w)
  | UseState k => suspensions env (k (isSubmitting w)) w
  end.

(** The calls made between two worlds of one run. *)
Definition calls_since (w w' : World) : list Call :=
  skipn (List.length (trace w)) (trace w').

(** ** Markup *)

(** [e.target.value] is all the handlers read of an event. *)
Record EventTarget : Type := { value : string }.
Record ChangeEvent : Type := { target : EventTarget }.

(** The event a form hands to its [onSubmit] attribute. *)
Inductive SubmitEvent : Type :=
| FormSubmit.

Inductive AttrValue : Type :=
| AString (s : string)
| ABool (b : bool)
| AOnChange (h : ChangeEvent -> Prog unit)
| AOnSubmit (h : SubmitEvent -> Prog unit).

Definition Attrs := list (string * AttrValue).

#[local] Set Warnings "-register-all".

(** A JSX expression: text, a host element, or a reference to a component
    ([<Details />]), which the expression names but does not call. *)
Inductive Node : Type :=
| Text (s : string)
| Element (tag : string) (attrs : Attrs) (children : list Node)
| Component (name : string) (attrs : Attrs).

Fixpoint attr (name : string) (attrs : Attrs) : option AttrValue :=
  match attrs with
  | [] => None
  | (n, v) :: rest => if String.eqb n name then Some v else attr name rest
  end.

Definition attrs_of (n : Node) : Attrs :=
  match n with
  | Text _ => []
  | Element _ attrs _ => attrs
  | Component _ attrs => attrs
  end.

Definition children_of (n : Node) : list Node :=
  match n with
  | Element _ _ children => children
  | _ => []
  end.

(** The node and its descendants, in document order. *)
Fixpoint subtree (n : Node) : list Node :=
  n :: match n with
       | Element _ _ children => flat_map subtree children
       | _ => []
       end.

Definition has_tag (t : string) (n : Node) : bool :=
  match n with
  | Element tag _ _ => String.eqb tag t
  | _ => false
  end.

Definition elements_by_tag (t : string) (n : Node) : list Node :=
  filter (has_tag t) (subtree n).

(** The components a JSX expression references, in document order. *)
Fixpoint components (n : Node) : list string :=
  match n with
  | Text _ => []
  | Element _ _ children => flat_map components children
  | Component name _ => [name]
  end.

(** [className] is a space-separated list of class names. *)
Fixpoint words_from (cur : string) (s : string) : list string :=
  match s with
  | EmptyString => if String.eqb cur "" then [] else [cur]
  | String c rest =>
      if Ascii.eqb c " "%char
      then (if String.eqb cur "" then [] else [cur]) ++ words_from "" rest
      else words_from (cur ++ String c "")%string rest
  end.

Definition class_list (n : Node) : list string :=
  match attr "className" (attrs_of n) with
  | Some (AString s) => words_from "" s
  | _ => []
  end.

Definition has_class (c : string) (n : Node) : bool :=
  existsb (String.eqb c) (class_list n).

Definition elements_by_class (c : string) (n : Node) : list Node :=
  filter (has_class c) (subtree n).

(** What the browser does with a [change] event on an element: it calls
    the element's [onChange] attribute, if there is one. *)
Definition dispatch_change (n : Node) (e : ChangeEvent) : Prog unit :=
  match attr "onChange" (attrs_of n) with
  | Some (AOnChange h) => h e
  | _ => Ret tt
  end.

(** The [disabled] attribute of an element. *)
Definition disabled (n : Node) : bool :=
  match attr "disabled" (attrs_of n) with
  | Some (ABool b) => b
  | _ => false
  end.

(** The [value] attributes of the [<option>]s of a [<select>]. *)
Definition option_values (sel : Node) : list string :=
  flat_map
    (fun o => match attr "value" (attrs_of o) with
              | Some (AString v) => [v]
              | _ => []
              end)
    (elements_by_tag "option" sel).

(** The markup a component body returns in a world, if it returns. *)
Definition render (env : Env) (body : Prog Node) (w : World) : option Node :=
  match fst (run env body w) with
  | Normal n => Some n
  | Abrupt _ => None
  end.

(** ** src/features/auth/pages/Registration.tsx *)

Section Registration.

(** [auth], imported from config/firebase. *)
Variable auth : FirebaseAuth.

(** [handleSubmit], as [useForm<RegistrationForm>()] returns it. *)
Variable handleSubmit :
  (RegistrationForm -> Prog unit) -> SubmitEvent -> Prog unit.

Definition onSubmit (data : RegistrationForm) : Prog unit :=
  (call (setIsSubmitting true) ;;
   try_finally
     (try_catch
        (await (createUserWithEmailAndPassword auth (email data) (password data)) ;;
         call (navigate "/verify-email"
                 {| state := {| state_email := email data |} |}))
        (fun error => call (console_error "Registration error:" error)))
     (call (setIsSubmitting false)))%prog.

(** The body of the component: [useState(false)] gives the current
    [isSubmitting], which is [false] until a handler writes it, and the JSX
    is returned.  What the guide leaves out is taken as given: [useNavigate()]
    and [useForm()] return [navigate] and [handleSubmit], and [CityBackground],
    whose import the guide does not show, is bound to a component. *)
Definition Registration : Prog Node :=
  UseState (fun isSubmitting =>
    Ret
      (Element "div" [("className", AString "min-h-screen flex")]
         [ Element "div" [("className", AString "w-1/2 p-8 flex flex-col")]
             [ Element "img"
                 [("src", AString "/logo.svg");
                  ("alt", AString "SafeTrust");
                  ("className", AString "h-12 mb-12")] [];
               Element "form"
                 [("onSubmit", AOnSubmit (handleSubmit onSubmit));
                  ("className", AString "space-y-6")]
                 [ Element "button"
                     [("type", AString "submit");
                      ("disabled", ABool isSubmitting);
                      ("className", AString
                         "w-full bg-orange-500 text-white py-3 rounded-md hover:bg-orange-600 disabled:opacity-50")]
                     [ Text (if isSubmitting then "Registering..." else "Login") ] ] ];
           Element "div"
             [("className", AString "w-1/2 bg-orange-500 relative overflow-hidden")]
             [ Component "CityBackground"
                 [("className", AString "absolute bottom-0 w-full")] ] ])).

End Registration.

(** The account-creation calls of a trace, with their arguments. *)
Definition account_creations (t : list Call)
  : list (FirebaseAuth * string * string) :=
  flat_map
    (fun c => match c with
              | createUserWithEmailAndPassword a em pw => [(a, em, pw)]
              | _ => []
              end)
    t.

(** The navigations of a trace, with their arguments. *)
Definition navigations (t : list Call) : list (string * NavigateOptions) :=
  flat_map
    (fun c => match c with
              | navigate to options => [(to, options)]
              | _ => []
              end)
    t.

(** What [console.error] was given. *)
Definition logged (t : list Call) : list (string * JsError) :=
  flat_map
    (fun c => match c with
              | console_error label e => [(label, e)]
              | _ => []
              end)
    t.

(** The values the state setter was given. *)
Definition flag_writes (t : list Call) : list bool :=
  flat_map
    (fun c => match c with
              | setIsSubmitting b => [b]
              | _ => []
              end)
    t.

(** The submit button of a rendered form is disabled. *)
Definition submit_disabled (page : option Node) : bool :=
  match page with
  | Some n =>
      match elements_by_tag "button" n with
      | [b] => disabled b
      | _ => false
      end
  | None => false
  end.

(** ** src/features/auth/components/PhoneInput/index.tsx *)

Record Props : Type := {
  props_countryCode : string;
  props_phoneNumber : string;
  onCountryCodeChange : string -> Prog unit;
  onPhoneNumberChange : string -> Prog unit
}.

Definition PhoneInput (props : Props) : Prog Node :=
  Ret
    (Element "div" [("className", AString "flex gap-2")]
       [ Element "div" [("className", AString "relative")]
           [ Element "select"
               [("value", AString (props_countryCode props));
                ("onChange",
                 AOnChange (fun e => onCountryCodeChange props (value (target e))));
                ("className", AString "w-24 p-3 pl-8 border rounded-md appearance-none")]
               [ Element "option" [("value", AString "+506")]
                   [ Text "🇨🇷 +506" ] ] ];
         Element "input"
           [("type", AString "tel");
            ("value", AString (props_phoneNumber props));
            ("onChange",
             AOnChange (fun e => onPhoneNumberChange props (value (target e))));
            ("className", AString "flex-1 p-3 border rounded-md");
            ("placeholder", AString "74812445")]
           [] ]).

(** ** src/app/profile/bids/page.tsx *)

(** The default imports of the module, as (local name, module). *)
Definition imports : list (string * string) :=
  [ ("React", "react");
    ("MainHeader", "@/layouts/Header");
    ("Header", "@/layouts/paidStateBidRequest/Header");
    ("Details", "@/components/bids/InvoiceDetails");
    ("Notes", "@/components/bids/NotesSection");
    ("Process", "@/components/bids/ProcessTimeline") ].

(** The arrow function takes no parameter: whatever React passes is
    ignored. *)
Definition PaidStateBidRequest {P : Type} (_ : P) : Prog Node :=
  Ret
    (Element "div" [("className", AString "w-full bg-gray-50 min-h-screen")]
       [ Component "MainHeader" [];
         Element "div" [("className", AString "px-10 py-8")]
           [ Component "Header" [];
             Element "div" [("className", AString "grid grid-cols-12 gap-6")]
               [ Element "div"
                   [("className", AString "col-span-8 bg-white shadow rounded p-4")]
                   [ Element "h2" [] [ Text "Details Section" ];
                     Component "Details" [] ];
                 Element "div" [("className", AString "col-span-4")]
                   [ Element "div"
                       [("className", AString "bg-white shadow rounded p-4 mb-6")]
                       [ Component "Notes" [] ];
                     Element "div"
                       [("className", AString "bg-white shadow rounded p-4")]
                       [ Element "h3"
                           [("className", AString "text-lg font-bold text-black")]
                           [ Text "Process" ];
                         Component "Process" [] ] ] ] ] ]).

(** ** A submission seen from outside *)

(** The account-creation call [onSubmit] makes for the form values. *)
Definition creation_call (auth : FirebaseAuth) (data : RegistrationForm) : Call :=
  createUserWithEmailAndPassword auth (email data) (password data).

(** The navigation [onSubmit] makes for the form values. *)
Definition navigation_call (data : RegistrationForm) : Call :=
  navigate "/verify-email" {| state := {| state_email := email data |} |}.

(** The world while the account-creation call is outstanding. *)
Definition world_awaiting (auth : FirebaseAuth) (data : RegistrationForm)
  (w : World) : World :=
  perform (creation_call auth data) (perform (setIsSubmitting true) w).

(** How the identity provider answers the call of a submission started in
    world [w]. *)
Definition creation_outcome (env : Env) (auth : FirebaseAuth)
  (data : RegistrationForm) (w : World) : Outcome :=
  respond env (perform (setIsSubmitting true) w) (creation_call auth data).

(** How the router answers the navigation of that submission. *)
Definition navigation_outcome (env : Env) (auth : FirebaseAuth)
  (data : RegistrationForm) (w : World) : Outcome :=
  respond env (world_awaiting auth data w) (navigation_call data).

(** The world a submission started in [w] ends in. *)
Definition world_after (env : Env) (auth : FirebaseAuth)
  (data : RegistrationForm) (w : World) : World :=
  snd (run env (onSubmit auth data) w).

(** The calls of a submission started in [w], by the path it takes. *)
Inductive Path (auth : FirebaseAuth) (env : Env) (data : RegistrationForm)
  (w : World) : list Call -> Prop :=
| path_rejected (e : JsError) :
    creation_outcome env auth data w = Rejected e ->
    Path auth env data w
      [ setIsSubmitting true; creation_call auth data;
        console_error "Registration error:" e; setIsSubmitting false ]
| path_navigated :
    creation_outcome env auth data w = Fulfilled ->
    navigation_outcome env auth data w = Fulfilled ->
    Path auth env data w
      [ setIsSubmitting true; creation_call auth data;
        navigation_call data; setIsSubmitting false ]
| path_navigation_threw (e : JsError) :
    creation_outcome env auth data w = Fulfilled ->
    navigation_outcome env auth data w = Rejected e ->
    Path auth env data w
      [ setIsSubmitting true; creation_call auth data;
        navigation_call data;
        console_error "Registration error:" e; setIsSubmitting false ].

(** The elements with tag [t] of a rendered page. *)
Definition rendered (t : string) (page : option Node) : list Node :=
  match page with
  | Some n => elements_by_tag t n
  | None => []
  end.

(** The local names a module imports, [React] apart. *)
Definition imported_components (imps : list (string * string)) : list string :=
  filter (fun n => negb (String.eqb n "React")) (map fst imps).

(** The text a node shows. *)
Fixpoint text_of (n : Node) : string :=
  match n with
  | Text s => s
  | Element _ _ children => String.concat "" (map text_of children)
  | Component _ _ => ""
  end.

(** The label of the submit button of a rendered form. *)
Definition submit_label (page : option Node) : string :=
  match rendered "button" page with
  | [b] => text_of b
  | _ => ""
  end.

(** What the browser does with a [submit] event on a form: it calls the
    form's [onSubmit] attribute, if there is one. *)
Definition dispatch_submit (n : Node) (e : SubmitEvent) : Prog unit :=
  match attr "onSubmit" (attrs_of n) with
  | Some (AOnSubmit h) => h e
  | _ => Ret tt
  end.

(** The string value of an attribute of an element. *)
Definition string_attr (name : string) (n : Node) : option string :=
  match attr name (attrs_of n) with
  | Some (AString v) => Some v
  | _ => None
  end.

(** ** Handlers that overlap *)

(** A handler runs until it ends or until its next [await]; there it gives
    the thread back, and goes on when the promise is settled. *)
Inductive Paused (A : Type) : Type :=
| Finished (r : Completion A) (w : World)
| Waiting (c : Call) (k : Outcome -> Prog A) (before : World).

Arguments Finished {A} r w.
Arguments Waiting {A} c k before.

(** [Waiting c k before]: the call [c] was made in world [before], and [k]
    is what is left to run. *)
Fixpoint advance {A : Type} (env : Env) (p : Prog A) (w : World) : Paused A :=
  match p with
  | Ret a => Finished (Normal a) w
  | Throw e => Finished (Abrupt e) w
  | Invoke c k => advance env (k (respond env w c)) (perform c w)
  | Await c k => Waiting c k w
  | UseState k => advance env (k (isSubmitting w)) w
  end.

(** What is left of [onSubmit] once the account-creation call is made. *)
Definition after_creation (data : RegistrationForm) (o : Outcome) : Prog unit :=
  try_finally
    (try_catch
       (bind (settle o) (fun _ => call (navigation_call data)))
       (fun error => call (console_error "Registration error:" error)))
    (call (setIsSubmitting false)).

(** ** The page over time *)

(** React renders between tasks, never inside a handler.  A page is the
    world, the flag as the last render read it, and the submissions that are
    suspended on their account-creation call, oldest first, each with what is
    left of its handler. *)
Record Page : Type := {
  page_world : World;
  shown : bool;
  outstanding : list (Call * (Outcome -> Prog unit))
}.

(** The world as the last render read it. *)
Definition on_screen (pg : Page) : World :=
  {| isSubmitting := shown pg; trace := trace (page_world pg) |}.

(** What happens to a page: the form runs [onSubmit] on its values, the
    [n]-th outstanding call is settled, or React renders. *)
Inductive PageEvent : Type :=
| Submit (data : RegistrationForm)
| Settle (n : nat) (o : Outcome)
| Render.

(** A handler takes the thread until it ends or awaits. *)
Definition take_thread (env : Env) (p : Prog unit) (pg : Page) : Page :=
  match advance env p (page_world pg) with
  | Finished _ w =>
      {| page_world := w; shown := shown pg; outstanding := outstanding pg |}
  | Waiting c k before =>
      {| page_world := perform c before;
         shown := shown pg;
         outstanding := outstanding pg ++ [(c, k)] |}
  end.

Definition page_step (auth : FirebaseAuth) (env : Env) (pg : Page)
  (ev : PageEvent) : Page :=
  match ev with
  | Submit data => take_thread env (onSubmit auth data) pg
  | Settle n o =>
      match nth_error (outstanding pg) n with
      | Some (_, k) =>
          take_thread env (k o)
            {| page_world := page_world pg;
               shown := shown pg;
               outstanding :=
                 firstn n (outstanding pg) ++ skipn (S n) (outstanding pg) |}
      | None => pg
      end
  | Render =>
      {| page_world := page_world pg;
         shown := isSubmitting (page_world pg);
         outstanding := outstanding pg |}
  end.

Definition play (auth : FirebaseAuth) (env : Env) (evs : list PageEvent)
  (pg : Page) : Page :=
  fold_left (page_step auth env) evs pg.

(** While a call is outstanding the flag is set and the last render has
    read it set. *)
Definition flag_held (pg : Page) : bool :=
  match outstanding pg with
  | [] => true
  | _ :: _ => isSubmitting (page_world pg) && shown pg
  end.

(** ** Sample inputs *)

Definition sample_auth : FirebaseAuth := FirebaseAuthOf "safetrust".

Definition sample_form : RegistrationForm :=
  {| fullName := "Ana Mora";
     phoneNumber := "74812445";
     countryCode := "+506";
     location := "Costa Rica";
     email := "ana@example.com";
     password := "s3cret!" |}.

Definition idle : World := {| isSubmitting := false; trace := [] |}.

(** Every collaborator succeeds. *)
Definition env_accepting : Env := fun _ _ => Fulfilled.

(** The identity provider refuses the account. *)
Definition env_refusing : Env :=
  fun _ c =>
    match c with
    | createUserWithEmailAndPassword _ _ _ =>
        Rejected "auth/email-already-in-use"
    | _ => Fulfilled
    end.

(** Callbacks of a parent that does nothing with the edits. *)
Definition sample_props : Props :=
  {| props_countryCode := "+506";
     props_phoneNumber := "";
     onCountryCodeChange := fun _ => Ret tt;
     onPhoneNumberChange := fun _ => Ret tt |}.

Definition change_to (v : string) : ChangeEvent :=
  {| target := {| value := v |} |}.

(** The same credentials, every other field different. *)
Definition sample_form_other : RegistrationForm :=
  {| fullName := "";
     phoneNumber := "not a number";
     countryCode := "+1";
     location := "";
     email := "ana@example.com";
     password := "s3cret!" |}.

(** The account is created and the router throws. *)
Definition env_router_failing : Env :=
  fun _ c =>
    match c with
    | navigate _ _ => Rejected "No routes matched"
    | _ => Fulfilled
    end.

(** The page as first rendered, nothing submitted yet. *)
Definition first_page : Page :=
  {| page_world := idle; shown := false; outstanding := [] |}.

(** A [handleSubmit] that hands the sample values to the handler. *)
Definition sample_handleSubmit
  (f : RegistrationForm -> Prog unit) (_ : SubmitEvent) : Prog unit :=
  f sample_form.

(** A second submission made while the first is outstanding; then the first
    call is settled. *)
Definition second_form : RegistrationForm :=
  {| fullName := "Luis Solano";
     phoneNumber := "88120033";
     countryCode := "+506";
     location := "Costa Rica";
     email := "luis@example.com";
     password := "pa55word" |}.

Definition overlapping : list PageEvent :=
  [ Submit sample_form; Render; Submit second_form; Render;
    Settle 0 Fulfilled; Render ].

(** * Properties *)

(** ** How the combinators run *)

Section Combinators.

Variable env : Env.

(** [p; f]: [f] runs in the world [p] leaves, unless [p] throws. *)
Lemma run_bind (A B : Type) (p : Prog A) (f : A -> Prog B) (w : World) :
  run env (bind p f) w =
  match run env p w with
  | (Normal a, w1) => run env (f a) w1
  | (Abrupt e, w1) => (Abrupt e, w1)
  end.
Proof.
  revert w.
  induction p as [a | e | c k IH | c k IH | k IH]; intros w; cbn; auto.
Qed.

(** [catch] runs exactly when the body throws, in the world it left. *)
Lemma run_try_catch (A : Type) (body : Prog A) (handler : JsError -> Prog A)
  (w : World) :
  run env (try_catch body handler) w =
  match run env body w with
  | (Normal a, w1) => (Normal a, w1)
  | (Abrupt e, w1) => run env (handler e) w1
  end.
Proof.
  revert w.
  induction body as [a | e | c k IH | c k IH | k IH]; intros w; cbn; auto.
Qed.

(** [finally] runs on both exits of the body and keeps the exit of the body
    when it ends normally itself. *)
Lemma run_try_finally (A : Type) (body : Prog A) (fin : Prog unit)
  (w : World) :
  run env (try_finally body fin) w =
  match run env body w with
  | (r, w1) =>
      match run env fin w1 with
      | (Normal _, w2) => (r, w2)
      | (Abrupt e, w2) => (Abrupt e, w2)
      end
  end.
Proof.
  revert w.
  induction body as [a | e | c k IH | c k IH | k IH]; intros w; cbn; auto.
  - rewrite run_bind. destruct (run env fin w) as [[[] | e] w2]; reflexivity.
  - rewrite run_bind. destruct (run env fin w) as [[[] | e'] w2]; reflexivity.
Qed.

(** A body guarded by a [catch] that only logs and a [finally] that only
    writes the flag ends normally, with the flag as written, whatever the
    body does. *)
Lemma run_guarded (body : Prog unit) (label : string) (b : bool) (w : World) :
  fst (run env
         (try_finally
            (try_catch body (fun error => call (console_error label error)))
            (call (setIsSubmitting b))) w) = Normal tt
  /\ isSubmitting
       (snd (run env
               (try_finally
                  (try_catch body (fun error => call (console_error label error)))
                  (call (setIsSubmitting b))) w)) = b.
Proof.
  rewrite run_try_finally, run_try_catch.
  destruct (run env body w) as [[[] | e] w1]; cbn; split; reflexivity.
Qed.

End Combinators.

(** ** The three paths of [onSubmit] *)

Lemma skipn_own_prefix (A : Type) (l l' : list A) :
  skipn (List.length l) (l ++ l') = l'.
Proof.
  induction l as [| x l IH]; simpl; auto.
Qed.

Lemma calls_since_extend (w : World) (b : bool) (cs : list Call) :
  calls_since w {| isSubmitting := b; trace := trace w ++ cs |} = cs.
Proof.
  unfold calls_since; simpl. apply skipn_own_prefix.
Qed.

(** Both sides are the start world extended by the calls of the path. *)
Ltac close_path :=
  unfold perform; cbn [trace isSubmitting];
  rewrite <- ?app_assoc; reflexivity.

(** The identity provider rejects: the error is logged and nothing else
    happens before the flag is cleared. *)
Lemma onSubmit_rejected (auth : FirebaseAuth) (env : Env)
  (data : RegistrationForm) (w : World) (e : JsError) :
  creation_outcome env auth data w = Rejected e ->
  run env (onSubmit auth data) w =
  (Normal tt,
   {| isSubmitting := false;
      trace := trace w ++
        [ setIsSubmitting true; creation_call auth data;
          console_error "Registration error:" e; setIsSubmitting false ] |}).
Proof.
  unfold creation_outcome, creation_call, onSubmit. cbn. intros ->. cbn.
  close_path.
Qed.

(** The account is created and the router accepts the navigation. *)
Lemma onSubmit_navigated (auth : FirebaseAuth) (env : Env)
  (data : RegistrationForm) (w : World) :
  creation_outcome env auth data w = Fulfilled ->
  navigation_outcome env auth data w = Fulfilled ->
  run env (onSubmit auth data) w =
  (Normal tt,
   {| isSubmitting := false;
      trace := trace w ++
        [ setIsSubmitting true; creation_call auth data;
          navigation_call data; setIsSubmitting false ] |}).
Proof.
  unfold creation_outcome, navigation_outcome, world_awaiting, creation_call,
    navigation_call, onSubmit.
  cbn. intros -> Hnav. cbn. rewrite Hnav. cbn.
  close_path.
Qed.

(** The account is created and [navigate] throws: the same [catch] logs
    what it threw. *)
Lemma onSubmit_navigation_threw (auth : FirebaseAuth) (env : Env)
  (data : RegistrationForm) (w : World) (e : JsError) :
  creation_outcome env auth data w = Fulfilled ->
  navigation_outcome env auth data w = Rejected e ->
  run env (onSubmit auth data) w =
  (Normal tt,
   {| isSubmitting := false;
      trace := trace w ++
        [ setIsSubmitting true; creation_call auth data;
          navigation_call data;
          console_error "Registration error:" e; setIsSubmitting false ] |}).
Proof.
  unfold creation_outcome, navigation_outcome, world_awaiting, creation_call,
    navigation_call, onSubmit.
  cbn. intros -> Hnav. cbn. rewrite Hnav. cbn.
  close_path.
Qed.

Lemma onSubmit_paths (auth : FirebaseAuth) (env : Env)
  (data : RegistrationForm) (w : World) :
  exists cs : list Call,
    Path auth env data w cs /\
    run env (onSubmit auth data) w =
    (Normal tt, {| isSubmitting := false; trace := trace w ++ cs |}).
Proof.
  destruct (creation_outcome env auth data w) as [| e] eqn:Hc.
  - destruct (navigation_outcome env auth data w) as [| e] eqn:Hn.
    + eexists; split; [ apply path_navigated; assumption | ].
      apply onSubmit_navigated; assumption.
    + eexists; split; [ apply (path_navigation_threw _ _ _ _ e); assumption | ].
      apply onSubmit_navigation_threw; assumption.
  - eexists; split; [ apply (path_rejected _ _ _ _ e); assumption | ].
    apply onSubmit_rejected; assumption.
Qed.

(** ** The submit handler *)

(** C1. Whatever the form values are (valid ones included) and however the
    collaborators answer, one run of [onSubmit] calls
    [createUserWithEmailAndPassword] exactly once, with [auth] and with
    exactly the [email] and [password] of the submitted values. *)
Theorem onSubmit_creates_account_exactly_once (auth : FirebaseAuth)
  (env : Env) (data : RegistrationForm) (w : World) :
  account_creations (calls_since w (world_after env auth data w)) =
  [(auth, email data, password data)].
Proof.
  unfold world_after.
  destruct (onSubmit_paths auth env data w) as (cs & Hpath & ->).
  cbn [snd]. rewrite calls_since_extend.
  destruct Hpath; reflexivity.
Qed.

(** C2. When the account-creation call succeeds, [onSubmit] calls [navigate]
    right after it, once, with the route ["/verify-email"] and a navigation
    state whose email is the submitted one. *)
Theorem onSubmit_success_navigates_with_email (auth : FirebaseAuth)
  (env : Env) (data : RegistrationForm) (w : World) :
  creation_outcome env auth data w = Fulfilled ->
  navigations (calls_since w (world_after env auth data w)) =
    [("/verify-email", {| state := {| state_email := email data |} |})]
  /\ exists later : list Call,
       calls_since w (world_after env auth data w) =
       [ setIsSubmitting true; creation_call auth data;
         navigate "/verify-email"
           {| state := {| state_email := email data |} |} ] ++ later.
Proof.
  intros Hc. unfold world_after.
  destruct (navigation_outcome env auth data w) as [| e] eqn:Hn.
  - rewrite (onSubmit_navigated auth env data w Hc Hn).
    cbn [snd]. rewrite calls_since_extend.
    split; [ reflexivity | eexists; reflexivity ].
  - rewrite (onSubmit_navigation_threw auth env data w e Hc Hn).
    cbn [snd]. rewrite calls_since_extend.
    split; [ reflexivity | eexists; reflexivity ].
Qed.

Lemma onSubmit_success_navigates_with_email_witness :
  creation_outcome env_accepting sample_auth sample_form idle = Fulfilled
  /\ navigations
       (calls_since idle (world_after env_accepting sample_auth sample_form idle)) =
     [("/verify-email", {| state := {| state_email := "ana@example.com" |} |})].
Proof.
  split; [ reflexivity | ].
  apply (onSubmit_success_navigates_with_email
           sample_auth env_accepting sample_form idle).
  reflexivity.
Defined.

(** C3. When the account-creation call fails with [e], [onSubmit] completes
    normally (the error is caught); its calls are, in order, the flag set,
    the one account-creation call, [console.error] with [e], and the flag
    reset: so the error is logged, nothing is retried and nothing is
    navigated; the flag ends [false]; and the page then rendered is the page
    of the idle form, with no message about the failure. *)
Theorem onSubmit_failure_logged_and_flag_cleared (auth : FirebaseAuth)
  (handleSubmit : (RegistrationForm -> Prog unit) -> SubmitEvent -> Prog unit)
  (env env' : Env) (data : RegistrationForm) (w : World) (e : JsError) :
  creation_outcome env auth data w = Rejected e ->
  fst (run env (onSubmit auth data) w) = Normal tt
  /\ calls_since w (world_after env auth data w) =
       [ setIsSubmitting true; creation_call auth data;
         console_error "Registration error:" e; setIsSubmitting false ]
  /\ logged (calls_since w (world_after env auth data w)) =
       [("Registration error:", e)]
  /\ isSubmitting (world_after env auth data w) = false
  /\ navigations (calls_since w (world_after env auth data w)) = []
  /\ account_creations (calls_since w (world_after env auth data w)) =
       [(auth, email data, password data)]
  /\ render env' (Registration auth handleSubmit) (world_after env auth data w) =
     render env' (Registration auth handleSubmit) idle.
Proof.
  intros Hc. unfold world_after.
  rewrite (onSubmit_rejected auth env data w e Hc).
  cbn [fst snd]. rewrite calls_since_extend.
  repeat split.
Qed.

Lemma onSubmit_failure_logged_and_flag_cleared_witness :
  creation_outcome env_refusing sample_auth sample_form idle =
    Rejected "auth/email-already-in-use"
  /\ calls_since idle (world_after env_refusing sample_auth sample_form idle) =
       [ setIsSubmitting true;
         createUserWithEmailAndPassword sample_auth "ana@example.com" "s3cret!";
         console_error "Registration error:" "auth/email-already-in-use";
         setIsSubmitting false ].
Proof.
  split; [ reflexivity | ].
  apply (onSubmit_failure_logged_and_flag_cleared
           sample_auth (fun f _ => f sample_form) env_refusing env_accepting
           sample_form idle "auth/email-already-in-use").
  reflexivity.
Defined.

(** What is left of the handler after the call runs to its end without
    suspending again, and its one write to the flag clears it. *)
Lemma after_creation_finishes (env : Env) (data : RegistrationForm)
  (o : Outcome) (w : World) :
  exists cs : list Call,
    advance env (after_creation data o) w =
      Finished (Normal tt) {| isSubmitting := false; trace := trace w ++ cs |}
    /\ flag_writes cs = [false].
Proof.
  unfold after_creation, navigation_call.
  destruct o as [| e]; cbn.
  - match goal with
    | |- context [env ?t ?c] => destruct (env t c)
    end; cbn; unfold perform; cbn [trace isSubmitting];
      rewrite <- ?app_assoc; eexists; split; reflexivity.
  - unfold perform; cbn [trace isSubmitting];
      rewrite <- ?app_assoc; eexists; split; reflexivity.
Qed.

(** Renders change nothing but what is shown. *)
Lemma play_renders (auth : FirebaseAuth) (env : Env) (n : nat) (pg : Page) :
  play auth env (repeat Render (S n)) pg =
  {| page_world := page_world pg;
     shown := isSubmitting (page_world pg);
     outstanding := outstanding pg |}.
Proof.
  revert pg. induction n as [| n IH]; intros pg.
  - reflexivity.
  - change (play auth env (repeat Render (S (S n))) pg)
      with (play auth env (repeat Render (S n)) (page_step auth env pg Render)).
    rewrite IH. reflexivity.
Qed.

Lemma play_cons (auth : FirebaseAuth) (env : Env) (ev : PageEvent)
  (evs : list PageEvent) (pg : Page) :
  play auth env (ev :: evs) pg = play auth env evs (page_step auth env pg ev).
Proof.
  reflexivity.
Qed.

Lemma play_app (auth : FirebaseAuth) (env : Env) (evs1 evs2 : list PageEvent)
  (pg : Page) :
  play auth env (evs1 ++ evs2) pg = play auth env evs2 (play auth env evs1 pg).
Proof.
  unfold play. apply fold_left_app.
Qed.

(** A submission made while nothing is outstanding. *)
Lemma page_step_Submit (auth : FirebaseAuth) (env : Env)
  (data : RegistrationForm) (pg : Page) :
  outstanding pg = [] ->
  page_step auth env pg (Submit data) =
  {| page_world := world_awaiting auth data (page_world pg);
     shown := shown pg;
     outstanding := [(creation_call auth data, after_creation data)] |}.
Proof.
  intros Hnone. unfold page_step, take_thread, onSubmit. cbn.
  rewrite Hnone. reflexivity.
Qed.

(** C5, as the code has it.  In a run of [onSubmit] that starts while no
    other is outstanding, the handler gives the thread back with its
    account-creation call outstanding, having called [setIsSubmitting(true)]
    and then made the call; what is shown is then still what the last render
    left.  From the first render after that, and through any further ones,
    the call is still outstanding, the flag is set, the render has read it
    set, and every page [Registration] renders has its submit button
    disabled.  When the call is settled, however it is, the handler ends,
    and its only write to the flag, made after the call has completed,
    clears it. *)
Theorem onSubmit_flag_held_after_render (auth : FirebaseAuth)
  (handleSubmit : (RegistrationForm -> Prog unit) -> SubmitEvent -> Prog unit)
  (env env' : Env) (data : RegistrationForm) (pg : Page) (n : nat)
  (o : Outcome) :
  outstanding pg = [] ->
  outstanding (page_step auth env pg (Submit data)) =
    [(creation_call auth data, after_creation data)]
  /\ calls_since (page_world pg)
       (page_world (page_step auth env pg (Submit data))) =
     [ setIsSubmitting true; creation_call auth data ]
  /\ shown (page_step auth env pg (Submit data)) = shown pg
  /\ outstanding (play auth env (Submit data :: repeat Render (S n)) pg) =
       [(creation_call auth data, after_creation data)]
  /\ flag_held (play auth env (Submit data :: repeat Render (S n)) pg) = true
  /\ (forall page : Node,
        render env' (Registration auth handleSubmit)
          (on_screen (play auth env (Submit data :: repeat Render (S n)) pg)) =
        Some page ->
        submit_disabled (Some page) = true)
  /\ outstanding
       (play auth env (Submit data :: repeat Render (S n) ++ [Settle 0 o]) pg) =
     []
  /\ flag_writes
       (calls_since
          (page_world (play auth env (Submit data :: repeat Render (S n)) pg))
          (page_world
             (play auth env
                (Submit data :: repeat Render (S n) ++ [Settle 0 o]) pg))) =
     [false]
  /\ isSubmitting
       (page_world
          (play auth env
             (Submit data :: repeat Render (S n) ++ [Settle 0 o]) pg)) =
     false.
Proof.
  intros Hnone.
  rewrite !play_cons, play_app, play_renders.
  rewrite (page_step_Submit auth env data pg Hnone).
  cbn [page_world shown outstanding on_screen].
  destruct (after_creation_finishes env data o
              (world_awaiting auth data (page_world pg)))
    as (cs & Hrest & Hwrites).
  unfold play, fold_left, page_step.
  cbn [page_world shown outstanding nth_error firstn skipn app].
  unfold take_thread; cbn [page_world shown outstanding].
  rewrite Hrest. cbn [page_world outstanding isSubmitting].
  rewrite calls_since_extend.
  split; [ reflexivity | ].
  split.
  { unfold calls_since, world_awaiting, perform; cbn [trace].
    rewrite <- app_assoc. apply skipn_own_prefix. }
  split; [ reflexivity | ].
  split; [ reflexivity | ].
  split; [ reflexivity | ].
  split.
  { cbn. intros page Hpage. injection Hpage as <-. reflexivity. }
  split; [ reflexivity | ].
  split; [ exact Hwrites | reflexivity ].
Qed.

Lemma onSubmit_flag_held_after_render_witness :
  outstanding first_page = []
  /\ flag_held
       (play sample_auth env_accepting
          (Submit sample_form :: repeat Render 1) first_page) = true.
Proof.
  split; [ reflexivity | ].
  apply (onSubmit_flag_held_after_render
           sample_auth sample_handleSubmit env_accepting env_accepting
           sample_form first_page 0 Fulfilled).
  reflexivity.
Defined.

(** The claim C5 as the spec states it, that the flag is set and shown set
    throughout the time a call is outstanding, fails in two ways.  Right
    after the handler has made its call and given the thread back, no render
    has happened yet and the button on screen is still enabled.  And when a
    second submission overlaps the first, the first one ending clears the
    flag while the call of the second is outstanding. *)
Lemma flag_not_held_throughout :
  (map fst
     (outstanding
        (play sample_auth env_accepting [Submit sample_form] first_page)) =
     [creation_call sample_auth sample_form]
   /\ flag_held
        (play sample_auth env_accepting [Submit sample_form] first_page) =
      false
   /\ submit_disabled
        (render env_accepting (Registration sample_auth sample_handleSubmit)
           (on_screen
              (play sample_auth env_accepting [Submit sample_form] first_page))) =
      false)
  /\ (map fst
        (outstanding (play sample_auth env_accepting overlapping first_page)) =
        [creation_call sample_auth second_form]
      /\ isSubmitting
           (page_world (play sample_auth env_accepting overlapping first_page)) =
         false
      /\ flag_held (play sample_auth env_accepting overlapping first_page) =
         false
      /\ submit_disabled
           (render env_accepting (Registration sample_auth sample_handleSubmit)
              (on_screen
                 (play sample_auth env_accepting overlapping first_page))) =
         false).
Proof.
  repeat split.
Qed.

(** C8. In every run of [onSubmit], on the success paths as on the failure
    path, the last call is [setIsSubmitting(false)], made after the
    account-creation call, and the flag ends [false]. *)
Theorem onSubmit_always_clears_flag (auth : FirebaseAuth) (env : Env)
  (data : RegistrationForm) (w : World) :
  isSubmitting (world_after env auth data w) = false
  /\ exists between : list Call,
       calls_since w (world_after env auth data w) =
       [ setIsSubmitting true; creation_call auth data ] ++ between
       ++ [ setIsSubmitting false ].
Proof.
  split.
  { unfold world_after, onSubmit. rewrite run_bind. cbn.
    apply run_guarded. }
  unfold world_after.
  destruct (onSubmit_paths auth env data w) as (cs & Hpath & ->).
  cbn [snd]. rewrite calls_since_extend.
  destruct Hpath.
  - exists [console_error "Registration error:" e]. reflexivity.
  - exists [navigation_call data]. reflexivity.
  - exists [navigation_call data; console_error "Registration error:" e].
    reflexivity.
Qed.

(** C9. [onSubmit] never completes abruptly: whatever the identity provider
    and the router answer, the run ends normally. *)
Theorem onSubmit_never_throws (auth : FirebaseAuth) (env : Env)
  (data : RegistrationForm) (w : World) :
  fst (run env (onSubmit auth data) w) = Normal tt.
Proof.
  unfold onSubmit. rewrite run_bind. cbn.
  apply run_guarded.
Qed.

(** ** The phone input *)

(** C4. [PhoneInput] renders one [select] and one [input].  A change event
    on the select runs [onCountryCodeChange] on the event's target value and
    a change event on the input runs [onPhoneNumberChange] on it: the handler
    is the callback applied to the raw value, for every value, and does
    nothing before or after it. *)
Theorem PhoneInput_reports_raw_values (props : Props) (env : Env) (w : World)
  (e : ChangeEvent) :
  exists sel inp : Node,
    rendered "select" (render env (PhoneInput props) w) = [sel]
    /\ rendered "input" (render env (PhoneInput props) w) = [inp]
    /\ dispatch_change sel e = onCountryCodeChange props (value (target e))
    /\ dispatch_change inp e = onPhoneNumberChange props (value (target e)).
Proof.
  do 2 eexists. cbn.
  split; [ reflexivity | split; [ reflexivity | split; reflexivity ] ].
Qed.

(** C10. A select that [PhoneInput] renders offers the single option
    ["+506"]; so a change event on it whose target value is one of the
    offered options, as the events of a select are, runs
    [onCountryCodeChange] on ["+506"]. *)
Theorem PhoneInput_country_code_is_506 (props : Props) (env : Env) (w : World)
  (sel : Node) (e : ChangeEvent) :
  In sel (rendered "select" (render env (PhoneInput props) w)) ->
  In (value (target e)) (option_values sel) ->
  option_values sel = ["+506"]
  /\ dispatch_change sel e = onCountryCodeChange props "+506".
Proof.
  cbn. intros [<- | []]. cbn. intros [<- | []].
  split; reflexivity.
Qed.

Lemma PhoneInput_country_code_is_506_witness :
  exists sel : Node,
    rendered "select" (render env_accepting (PhoneInput sample_props) idle) = [sel]
    /\ In (value (target (change_to "+506"))) (option_values sel)
    /\ option_values sel = ["+506"]
    /\ dispatch_change sel (change_to "+506") = Ret tt.
Proof.
  eexists. split; [ reflexivity | ].
  split; [ left; reflexivity | ].
  apply (PhoneInput_country_code_is_506 sample_props env_accepting idle).
  - left; reflexivity.
  - left; reflexivity.
Defined.

(** ** The bid page *)

(** C6. [PaidStateBidRequest] is a pure rendering function: whatever it is
    passed, whatever the state cell holds and whatever the collaborators
    would answer, it returns the same markup, normally, with the world left
    as it was (no call made, no state written) and without suspending. *)
Theorem PaidStateBidRequest_is_pure (P Q : Type) (p : P) (q : Q)
  (env1 env2 : Env) (w1 w2 : World) :
  exists markup : Node,
    run env1 (PaidStateBidRequest p) w1 = (Normal markup, w1)
    /\ run env2 (PaidStateBidRequest q) w2 = (Normal markup, w2)
    /\ suspensions env1 (PaidStateBidRequest p) w1 = [].
Proof.
  eexists. split; [ reflexivity | split; reflexivity ].
Qed.

(** C7. The markup of [PaidStateBidRequest] references exactly the five
    imported components, MainHeader, Header, Details, Notes and Process, each
    once.  It holds one grid, of 12 columns, below the two headers, with two
    regions: one spanning 8 columns that holds Details, one spanning 4
    columns that holds Notes and Process. *)
Theorem PaidStateBidRequest_composition (P : Type) (p : P) (env : Env)
  (w : World) :
  exists page grid details side : Node,
    render env (PaidStateBidRequest p) w = Some page
    /\ components page = ["MainHeader"; "Header"; "Details"; "Notes"; "Process"]
    /\ components page = imported_components imports
    /\ NoDup (components page)
    /\ elements_by_class "grid-cols-12" page = [grid]
    /\ has_class "grid" grid = true
    /\ components grid = ["Details"; "Notes"; "Process"]
    /\ children_of grid = [details; side]
    /\ has_class "col-span-8" details = true
    /\ components details = ["Details"]
    /\ has_class "col-span-4" side = true
    /\ components side = ["Notes"; "Process"].
Proof.
  do 4 eexists. cbn.
  repeat (split; [ reflexivity | ]).
  split.
  - repeat constructor; cbn; intuition discriminate.
  - repeat (split; [ reflexivity | ]). reflexivity.
Qed.

(** * Further properties of the code *)

(** ** The submit handler, continued *)

(** A handler run to its end is the handler run to its first [await] and
    then on from the answer to the awaited call. *)
Lemma run_advance (A : Type) (env : Env) (p : Prog A) (w : World) :
  run env p w =
  match advance env p w with
  | Finished r w' => (r, w')
  | Waiting c k before => run env (k (respond env before c)) (perform c before)
  end.
Proof.
  revert w.
  induction p as [a | e | c k IH | c k IH | k IH]; intros w; cbn; auto.
Qed.

Lemma calls_since_twice (w : World) (b : bool) (cs1 cs2 : list Call) :
  calls_since w {| isSubmitting := b; trace := (trace w ++ cs1) ++ cs2 |} =
  cs1 ++ cs2.
Proof.
  rewrite <- app_assoc. apply calls_since_extend.
Qed.

Lemma account_creations_app (t1 t2 : list Call) :
  account_creations (t1 ++ t2) = account_creations t1 ++ account_creations t2.
Proof.
  unfold account_creations. apply flat_map_app.
Qed.

Lemma Path_account_creations (auth : FirebaseAuth) (env : Env)
  (data : RegistrationForm) (w : World) (cs : list Call) :
  Path auth env data w cs ->
  account_creations cs = [(auth, email data, password data)].
Proof.
  intros []; reflexivity.
Qed.

(** X1. [onSubmit] reads nothing of the form but [email] and [password]:
    two submissions that agree on these two fields run alike, whatever the
    name, phone number, country code and location are. *)
Theorem onSubmit_reads_only_credentials (auth : FirebaseAuth) (env : Env)
  (d1 d2 : RegistrationForm) (w : World) :
  email d1 = email d2 ->
  password d1 = password d2 ->
  run env (onSubmit auth d1) w = run env (onSubmit auth d2) w
  /\ suspensions env (onSubmit auth d1) w = suspensions env (onSubmit auth d2) w.
Proof.
  intros He Hp. unfold onSubmit. rewrite He, Hp. split; reflexivity.
Qed.

Lemma onSubmit_reads_only_credentials_witness :
  fullName sample_form <> fullName sample_form_other
  /\ run env_refusing (onSubmit sample_auth sample_form) idle =
     run env_refusing (onSubmit sample_auth sample_form_other) idle.
Proof.
  split; [ discriminate | ].
  apply (onSubmit_reads_only_credentials
           sample_auth env_refusing sample_form sample_form_other idle);
    reflexivity.
Defined.

(** X2. When the account is created and [navigate] throws [e], the same
    [catch] takes it: [e] is logged under ["Registration error:"], the flag
    is cleared and the handler ends normally, the account-creation call
    having been made. *)
Theorem onSubmit_navigation_failure_logged (auth : FirebaseAuth) (env : Env)
  (data : RegistrationForm) (w : World) (e : JsError) :
  creation_outcome env auth data w = Fulfilled ->
  navigation_outcome env auth data w = Rejected e ->
  fst (run env (onSubmit auth data) w) = Normal tt
  /\ calls_since w (world_after env auth data w) =
       [ setIsSubmitting true; creation_call auth data; navigation_call data;
         console_error "Registration error:" e; setIsSubmitting false ]
  /\ isSubmitting (world_after env auth data w) = false.
Proof.
  intros Hc Hn. unfold world_after.
  rewrite (onSubmit_navigation_threw auth env data w e Hc Hn).
  cbn [fst snd]. rewrite calls_since_extend.
  repeat split.
Qed.

Lemma onSubmit_navigation_failure_logged_witness :
  creation_outcome env_router_failing sample_auth sample_form idle = Fulfilled
  /\ navigation_outcome env_router_failing sample_auth sample_form idle =
       Rejected "No routes matched"
  /\ fst (run env_router_failing (onSubmit sample_auth sample_form) idle) =
       Normal tt.
Proof.
  split; [ reflexivity | split; [ reflexivity | ] ].
  apply (onSubmit_navigation_failure_logged
           sample_auth env_router_failing sample_form idle "No routes matched");
    reflexivity.
Defined.

(** X3. [console.error] is called at most once in a run, and it is not
    called exactly when both the account creation and the navigation
    succeed. *)
Theorem onSubmit_logs_iff_failure (auth : FirebaseAuth) (env : Env)
  (data : RegistrationForm) (w : World) :
  List.length (logged (calls_since w (world_after env auth data w))) <= 1
  /\ (logged (calls_since w (world_after env auth data w)) = [] <->
      creation_outcome env auth data w = Fulfilled
      /\ navigation_outcome env auth data w = Fulfilled).
Proof.
  unfold world_after.
  destruct (creation_outcome env auth data w) as [| e] eqn:Hc.
  - destruct (navigation_outcome env auth data w) as [| e] eqn:Hn.
    + rewrite (onSubmit_navigated auth env data w Hc Hn).
      cbn [snd]. rewrite calls_since_extend. cbn.
      split; [ auto | split; auto ].
    + rewrite (onSubmit_navigation_threw auth env data w e Hc Hn).
      cbn [snd]. rewrite calls_since_extend. cbn.
      split; [ auto | split; [ discriminate | intros [_ H]; discriminate H ] ].
  - rewrite (onSubmit_rejected auth env data w e Hc).
    cbn [snd]. rewrite calls_since_extend. cbn.
    split; [ auto | split; [ discriminate | intros [H _]; discriminate H ] ].
Qed.

(** X4. In every run the flag is written exactly twice: set, then
    cleared. *)
Theorem onSubmit_writes_flag_twice (auth : FirebaseAuth) (env : Env)
  (data : RegistrationForm) (w : World) :
  flag_writes (calls_since w (world_after env auth data w)) = [true; false].
Proof.
  unfold world_after.
  destruct (onSubmit_paths auth env data w) as (cs & Hpath & ->).
  cbn [snd]. rewrite calls_since_extend.
  destruct Hpath; reflexivity.
Qed.

(** X5. [onSubmit] does not look at the flag: started with the flag set or
    not, after the same calls, it runs alike and suspends on the same call.
    The handler does not refuse a submission made while another is
    outstanding. *)
Theorem onSubmit_ignores_flag (auth : FirebaseAuth) (env : Env)
  (data : RegistrationForm) (t : list Call) (b1 b2 : bool) :
  run env (onSubmit auth data) {| isSubmitting := b1; trace := t |} =
  run env (onSubmit auth data) {| isSubmitting := b2; trace := t |}
  /\ map fst (suspensions env (onSubmit auth data)
                {| isSubmitting := b1; trace := t |}) =
     map fst (suspensions env (onSubmit auth data)
                {| isSubmitting := b2; trace := t |}).
Proof.
  unfold onSubmit. cbn.
  destruct (env (t ++ [setIsSubmitting true])
              (createUserWithEmailAndPassword auth (email data) (password data)));
    cbn; [ | split; reflexivity ].
  destruct (env _ (navigate _ _)); cbn; split; reflexivity.
Qed.

(** X6. Two submissions one after the other both run, whether the first
    fails or not: the account-creation calls are the first's and then the
    second's, the whole ends normally and the flag ends cleared. *)
Theorem onSubmit_twice_in_sequence (auth : FirebaseAuth) (env : Env)
  (d1 d2 : RegistrationForm) (w : World) :
  fst (run env (bind (onSubmit auth d1) (fun _ => onSubmit auth d2)) w) =
    Normal tt
  /\ account_creations
       (calls_since w
          (snd (run env (bind (onSubmit auth d1) (fun _ => onSubmit auth d2)) w))) =
     [(auth, email d1, password d1); (auth, email d2, password d2)]
  /\ isSubmitting
       (snd (run env (bind (onSubmit auth d1) (fun _ => onSubmit auth d2)) w)) =
     false.
Proof.
  rewrite run_bind.
  destruct (onSubmit_paths auth env d1 w) as (cs1 & Hp1 & ->).
  destruct (onSubmit_paths auth env d2
              {| isSubmitting := false; trace := trace w ++ cs1 |})
    as (cs2 & Hp2 & ->).
  cbn [fst snd trace isSubmitting].
  rewrite calls_since_twice, account_creations_app.
  rewrite (Path_account_creations _ _ _ _ _ Hp1).
  rewrite (Path_account_creations _ _ _ _ _ Hp2).
  repeat split.
Qed.

(** X7. The flag is one boolean for all submissions.  When a second
    submission starts while the call of the first is outstanding, both wait
    on their own call; and once the first call is settled, however it is,
    the first handler ends with the flag cleared and the submit button
    enabled, while the call of the second is still outstanding. *)
Theorem onSubmit_overlapping_clears_flag_early (auth : FirebaseAuth)
  (handleSubmit : (RegistrationForm -> Prog unit) -> SubmitEvent -> Prog unit)
  (env env' : Env) (d1 d2 : RegistrationForm) (w : World) (o1 : Outcome) :
  advance env (onSubmit auth d1) w =
    Waiting (creation_call auth d1) (after_creation d1)
      (perform (setIsSubmitting true) w)
  /\ advance env (onSubmit auth d2) (world_awaiting auth d1 w) =
       Waiting (creation_call auth d2) (after_creation d2)
         (perform (setIsSubmitting true) (world_awaiting auth d1 w))
  /\ isSubmitting (world_awaiting auth d2 (world_awaiting auth d1 w)) = true
  /\ exists w3 : World,
       advance env (after_creation d1 o1)
         (world_awaiting auth d2 (world_awaiting auth d1 w)) =
       Finished (Normal tt) w3
       /\ isSubmitting w3 = false
       /\ submit_disabled (render env' (Registration auth handleSubmit) w3) =
          false.
Proof.
  split; [ reflexivity | split; [ reflexivity | split; [ reflexivity | ] ] ].
  unfold after_creation, navigation_call.
  destruct o1 as [| e]; cbn.
  - match goal with
    | |- context [env ?t ?c] => destruct (env t c)
    end; cbn; eexists; repeat split.
  - eexists; repeat split.
Qed.

(** ** The registration page *)

(** X8. In every page [Registration] renders, the submit button is
    disabled exactly when [isSubmitting] holds, and reads "Registering..."
    then and "Login" otherwise. *)
Theorem Registration_button_follows_flag (auth : FirebaseAuth)
  (handleSubmit : (RegistrationForm -> Prog unit) -> SubmitEvent -> Prog unit)
  (env : Env) (w : World) (page : Node) :
  render env (Registration auth handleSubmit) w = Some page ->
  submit_disabled (Some page) = isSubmitting w
  /\ submit_label (Some page) =
     (if isSubmitting w then "Registering..." else "Login").
Proof.
  cbn. intros Hpage. injection Hpage as <-.
  split; reflexivity.
Qed.

Lemma Registration_button_follows_flag_witness :
  exists page : Node,
    render env_accepting (Registration sample_auth sample_handleSubmit)
      (world_awaiting sample_auth sample_form idle) = Some page
    /\ submit_disabled (Some page) = true
    /\ submit_label (Some page) = "Registering...".
Proof.
  eexists. split; [ reflexivity | ].
  apply (Registration_button_follows_flag
           sample_auth sample_handleSubmit env_accepting
           (world_awaiting sample_auth sample_form idle)).
  reflexivity.
Defined.

(** X9. The rendered page holds one form, and a submit event on it runs
    [handleSubmit(onSubmit)] on the event, in every state of the flag: the
    handler stays attached while a submission is outstanding. *)
Theorem Registration_form_runs_onSubmit (auth : FirebaseAuth)
  (handleSubmit : (RegistrationForm -> Prog unit) -> SubmitEvent -> Prog unit)
  (env : Env) (w : World) (ev : SubmitEvent) :
  exists form : Node,
    rendered "form" (render env (Registration auth handleSubmit) w) = [form]
    /\ dispatch_submit form ev = handleSubmit (onSubmit auth) ev.
Proof.
  eexists. cbn. split; reflexivity.
Qed.

(** ** The phone input, continued *)

(** X10. Rendering [PhoneInput] calls neither callback and does not throw.
    The select shows the [countryCode] it is given and the input, of type
    [tel], shows the [phoneNumber] it is given: the component keeps no value
    of its own. *)
Theorem PhoneInput_shows_its_props (props : Props) (env : Env) (w : World) :
  exists page sel inp : Node,
    run env (PhoneInput props) w = (Normal page, w)
    /\ elements_by_tag "select" page = [sel]
    /\ string_attr "value" sel = Some (props_countryCode props)
    /\ elements_by_tag "input" page = [inp]
    /\ string_attr "value" inp = Some (props_phoneNumber props)
    /\ string_attr "type" inp = Some "tel".
Proof.
  do 3 eexists. cbn.
  repeat (split; [ reflexivity | ]). reflexivity.
Qed.

(** X11. [PhoneInput] does not check the [countryCode] it is given against
    the options it offers: given any other code than ["+506"], the select is
    rendered with that code as its value and without an option for it. *)
Theorem PhoneInput_unlisted_country_code (props : Props) (env : Env)
  (w : World) (sel : Node) :
  props_countryCode props <> "+506" ->
  In sel (rendered "select" (render env (PhoneInput props) w)) ->
  string_attr "value" sel = Some (props_countryCode props)
  /\ ~ In (props_countryCode props) (option_values sel).
Proof.
  intros Hcode. cbn. intros [<- | []]. cbn.
  split; [ reflexivity | ].
  intros [H | []]. apply Hcode. symmetry. exact H.
Qed.

Lemma PhoneInput_unlisted_country_code_witness :
  exists sel : Node,
    rendered "select"
      (render env_accepting
         (PhoneInput
            {| props_countryCode := "+1";
               props_phoneNumber := "5550100";
               onCountryCodeChange := fun _ => Ret tt;
               onPhoneNumberChange := fun _ => Ret tt |}) idle) = [sel]
    /\ string_attr "value" sel = Some "+1"
    /\ ~ In "+1" (option_values sel).
Proof.
  eexists. split; [ reflexivity | ].
  apply (PhoneInput_unlisted_country_code
           {| props_countryCode := "+1";
              props_phoneNumber := "5550100";
              onCountryCodeChange := fun _ => Ret tt;
              onPhoneNumberChange := fun _ => Ret tt |}
           env_accepting idle).
  - discriminate.
  - left; reflexivity.
Defined.
